(** * webpack.config.js: the exported configuration and its matchers

    The repository holds one module, [webpack.config.js], whose value is an
    object literal handed to the bundler, followed by a prose walkthrough of
    that object.  The development below embeds the literal as a tree of
    JavaScript values, the regular-expression literals as abstract syntax
    with the matcher of [RegExp.prototype.test], and the bundler's reading of
    a rule ([test] / [exclude]), of a loader chain and of a filename
    template, and proves the properties the specification states about
    them. *)

From Stdlib Require Import List String Ascii NArith ZArith Bool Lia.
Import ListNotations.

Set Warnings "-register-all".

Local Open Scope string_scope.
Local Open Scope list_scope.
Local Open Scope N_scope.

(** ** JavaScript strings

    A JavaScript string is a sequence of 16-bit code units.  Literals of the
    source are ASCII and are written here as Rocq strings through [str]. *)

Definition code_unit := N.
Definition jsstring := list code_unit.

Definition str (s : string) : jsstring :=
  map N_of_ascii (list_ascii_of_string s).

Fixpoint jsstring_eqb (a b : jsstring) : bool :=
  match a, b with
  | [], [] => true
  | x :: a', y :: b' => (x =? y) && jsstring_eqb a' b'
  | _, _ => false
  end.

(** [p] ends with [suf]; [sub] occurs somewhere in [p]. *)
Definition ends_with (suf p : jsstring) : Prop :=
  exists pre, p = pre ++ suf.

Definition contains (sub p : jsstring) : Prop :=
  exists pre post, p = pre ++ sub ++ post.

(** ASCII case mapping, the only part of the Unicode tables that is fixed
    here. *)
Definition ascii_upper (c : code_unit) : code_unit :=
  if (97 <=? c) && (c <=? 122) then c - 32 else c.

Definition ascii_lower (c : code_unit) : code_unit :=
  if (65 <=? c) && (c <=? 90) then c + 32 else c.

(** ** Regular-expression literals *)

Inductive pattern : Type :=
| Empty                         (* the empty alternative *)
| Char (c : code_unit)          (* a pattern character, or an escape such as \. *)
| AssertEnd                     (* $ *)
| Seq (a b : pattern)           (* a b *)
| Alt (a b : pattern)           (* a|b *)
| Group (a : pattern).          (* ( a ) *)

Record RegExp : Type := mkRegExp {
  source : pattern;
  ignoreCase : bool;            (* flag i *)
  multiline : bool              (* flag m *)
}.

(** The characters of [s] in sequence. *)
Fixpoint chars (s : jsstring) : pattern :=
  match s with
  | [] => Empty
  | c :: s' => Seq (Char c) (chars s')
  end.

Definition lit (s : string) : pattern := chars (str s).

(** LineTerminator: LF, CR, LS, PS. *)
Definition is_line_terminator (c : code_unit) : bool :=
  (c =? 10) || (c =? 13) || (c =? 8232) || (c =? 8233).

(** ** JavaScript values

    The values an object literal of the module can hold.  An object keeps
    its properties in the order they are written; [VNew c args] is the
    result of [new c(args)] for a constructor obtained from [require]. *)

Inductive value : Type :=
| VUndefined
| VString (s : jsstring)
| VNumber (n : Z)
| VBoolean (b : bool)
| VRegExp (r : RegExp)
| VArray (xs : list value)
| VObject (props : list (string * value))
| VNew (ctor : string) (args : list value).

(** [o.k]: the last property written under the key wins, a missing one is
    [undefined], and so is a property of anything that is not an object. *)
Definition get (k : string) (o : value) : value :=
  match o with
  | VObject props =>
      match find (fun kv => String.eqb (fst kv) k) (rev props) with
      | Some kv => snd kv
      | None => VUndefined
      end
  | _ => VUndefined
  end.

(** [a[i]] for an array. *)
Definition index (i : nat) (a : value) : value :=
  match a with
  | VArray xs => nth i xs VUndefined
  | _ => VUndefined
  end.

(** [Object.keys(o)] and [k in o] for an object literal. *)
Definition keys (o : value) : list string :=
  match o with
  | VObject props => nodup string_dec (map fst props)
  | _ => []
  end.

Definition has_own (k : string) (o : value) : bool :=
  match o with
  | VObject props => existsb (fun kv => String.eqb (fst kv) k) props
  | _ => false
  end.

(** [k] is the key of a property anywhere inside [v]. *)
Fixpoint occurs (k : string) (v : value) : bool :=
  match v with
  | VObject props =>
      (fix in_props (ps : list (string * value)) : bool :=
         match ps with
         | [] => false
         | (k', w) :: ps' => String.eqb k' k || occurs k w || in_props ps'
         end) props
  | VArray xs | VNew _ xs =>
      (fix in_items (ws : list value) : bool :=
         match ws with
         | [] => false
         | w :: ws' => occurs k w || in_items ws'
         end) xs
  | _ => false
  end.

Declare Scope js_scope.
Delimit Scope js_scope with js.
Notation "o .[ k ]" := (get k o)
  (at level 1, left associativity, format "o .[ k ]") : js_scope.
Local Open Scope js_scope.

(** ** The regular expressions of the three rules *)

(** [/\.scss$/] *)
Definition scss_test : RegExp :=
  mkRegExp (Seq (lit ".scss") AssertEnd) false false.

(** [/\.js$/] *)
Definition js_test : RegExp :=
  mkRegExp (Seq (lit ".js") AssertEnd) false false.

(** [/node_modules/] *)
Definition js_exclude : RegExp :=
  mkRegExp (lit "node_modules") false false.

(** [/\.(png|svg|jpg|jpeg|gif)$/i] *)
Definition asset_test : RegExp :=
  mkRegExp
    (Seq (Char 46)
       (Seq (Group (Alt (lit "png")
                   (Alt (lit "svg")
                   (Alt (lit "jpg")
                   (Alt (lit "jpeg")
                        (lit "gif"))))))
            AssertEnd))
    true false.

(** The constructors the module obtains from [require]. *)
Definition HtmlWebpackPlugin : string := "html-webpack-plugin".
Definition BundleAnalyzerPlugin : string :=
  "webpack-bundle-analyzer.BundleAnalyzerPlugin".

(** ** Filename templates

    A template is literal text with tokens [[name]]: a bracket pair around
    one or more word characters or colons.  A bracket that does not close
    such a run is literal text. *)

Inductive piece : Type :=
| Lit (c : code_unit)
| Token (name : jsstring).

Definition is_token_char (c : code_unit) : bool :=
  ((48 <=? c) && (c <=? 57)) || ((65 <=? c) && (c <=? 90))
  || ((97 <=? c) && (c <=? 122)) || (c =? 95) || (c =? 58).

(** [pending] is [None] outside brackets and [Some n] after an opening
    bracket followed by the token characters [n]. *)
Fixpoint pieces_from (pending : option jsstring) (t : jsstring) : list piece :=
  match t with
  | [] =>
      match pending with
      | None => []
      | Some n => map Lit (91 :: n)
      end
  | c :: t' =>
      match pending with
      | None =>
          if c =? 91 then pieces_from (Some []) t'
          else Lit c :: pieces_from None t'
      | Some n =>
          if is_token_char c then pieces_from (Some (n ++ [c])) t'
          else if (c =? 93) && negb (jsstring_eqb n []) then
            Token n :: pieces_from None t'
          else if c =? 91 then map Lit (91 :: n) ++ pieces_from (Some []) t'
          else map Lit (91 :: n ++ [c]) ++ pieces_from None t'
      end
  end.

Definition pieces (t : jsstring) : list piece := pieces_from None t.

Fixpoint lookup (env : list (string * jsstring)) (n : jsstring)
  : option jsstring :=
  match env with
  | [] => None
  | (k, v) :: env' => if jsstring_eqb (str k) n then Some v else lookup env' n
  end.

(** A token the environment does not know stays as it is written; the text
    that replaces a token is not scanned again. *)
Definition render (env : list (string * jsstring)) (ps : list piece)
  : jsstring :=
  flat_map
    (fun p =>
       match p with
       | Lit c => [c]
       | Token n =>
           match lookup env n with
           | Some v => v
           | None => 91 :: n ++ [93]
           end
       end) ps.

Definition interpolate (env : list (string * jsstring)) (t : jsstring)
  : jsstring :=
  render env (pieces t).

(** A binary asset as the bundler sees it: the directory of the source file,
    its base name, its extension with the dot, and the hash of its
    content. *)
Record asset : Type := mkAsset {
  asset_dir : jsstring;
  asset_name : jsstring;
  asset_ext : jsstring;
  asset_hash : jsstring
}.

(** The stages of the style chain, as the walkthrough names them. *)
Inductive stage : Type :=
| Preprocess                    (* SCSS to CSS *)
| ResolveImports                (* interpret @import and url() *)
| Inject.                       (* put the CSS into the DOM *)

Definition loader_stage (l : jsstring) : option stage :=
  if jsstring_eqb l (str "sass-loader") then Some Preprocess
  else if jsstring_eqb l (str "css-loader") then Some ResolveImports
  else if jsstring_eqb l (str "style-loader") then Some Inject
  else None.

Section Config.

(** The upper-case mapping of a code unit outside ASCII, as the Unicode
    tables of the engine give it (the code unit itself when the mapping is
    not a single code unit). *)
Variable unicode_upper : code_unit -> code_unit.

Definition toUpperCase (ch : code_unit) : code_unit :=
  if ch <? 128 then ascii_upper ch else unicode_upper ch.

(** Canonicalize of ECMA-262 for a pattern without the u flag. *)
Definition canonicalize (r : RegExp) (ch : code_unit) : code_unit :=
  if ignoreCase r then
    let cu := toUpperCase ch in
    if (128 <=? ch) && (cu <? 128) then ch else cu
  else ch.

(** The matcher of a pattern, in the continuation-passing form of ECMA-262:
    [x] is the input from the current position on, [k] the rest of the
    match.  None of the constructs looks behind the current position, so the
    remaining input is the whole state. *)
Fixpoint pmatch (r : RegExp) (p : pattern) (x : jsstring)
         (k : jsstring -> bool) : bool :=
  match p with
  | Empty => k x
  | Char c =>
      match x with
      | ch :: x' =>
          if canonicalize r ch =? canonicalize r c then k x' else false
      | [] => false
      end
  | AssertEnd =>
      match x with
      | [] => k x
      | ch :: _ =>
          if multiline r && is_line_terminator ch then k x else false
      end
  | Seq a b => pmatch r a x (fun y => pmatch r b y k)
  | Alt a b => pmatch r a x k || pmatch r b x k
  | Group a => pmatch r a x k
  end.

(** RegExpBuiltinExec without the g and y flags: the match is tried at every
    index from 0 to the length of the input. *)
Fixpoint search (r : RegExp) (x : jsstring) : bool :=
  pmatch r (source r) x (fun _ => true)
  || match x with
     | [] => false
     | _ :: x' => search r x'
     end.

(** [r.test(s)] *)
Definition test (r : RegExp) (s : jsstring) : bool := search r s.

(** What a pattern can consume: [consumes r p x y] when [p] matches at the
    head of [x] and leaves [y]. *)
Fixpoint consumes (r : RegExp) (p : pattern) (x y : jsstring) : Prop :=
  match p with
  | Empty => x = y
  | Char c =>
      exists ch, x = ch :: y /\ canonicalize r ch = canonicalize r c
  | AssertEnd =>
      x = y /\
      (x = [] \/
       exists ch x', x = ch :: x' /\
                     multiline r && is_line_terminator ch = true)
  | Seq a b => exists z, consumes r a x z /\ consumes r b z y
  | Alt a b => consumes r a x y \/ consumes r b x y
  | Group a => consumes r a x y
  end.

(** ** The module

    Node evaluates the module with [__dirname] bound to the directory of the
    file; [path.resolve] comes from the [path] module. *)

Variable __dirname : jsstring.
Variable path_resolve : jsstring -> jsstring -> jsstring.

Definition exports : value :=
  VObject [
    ("mode", VString (str "production"));
    ("entry", VObject [
       ("bundle", VString (path_resolve __dirname (str "src/index.js"))) ]);
    ("output", VObject [
       ("filename", VString (str "[name][contenthash].js"));
       ("path", VString (path_resolve __dirname (str "dist")));
       ("clean", VBoolean true);
       ("assetModuleFilename", VString (str "[name][ext]")) ]);
    ("devServer", VObject [
       ("static", VObject [
          ("directory", VString (path_resolve __dirname (str "dist"))) ]);
       ("port", VNumber 3000);
       ("open", VBoolean true);
       ("hot", VBoolean true) ]);
    ("module", VObject [
       ("rules", VArray [
          VObject [
            ("test", VRegExp scss_test);
            ("use", VArray [ VString (str "style-loader");
                             VString (str "css-loader");
                             VString (str "sass-loader") ]) ];
          VObject [
            ("test", VRegExp js_test);
            ("exclude", VRegExp js_exclude);
            ("use", VObject [
               ("loader", VString (str "babel-loader"));
               ("options", VObject [
                  ("presets", VArray [ VString (str "@babel/preset-env") ])
                ]) ]) ];
          VObject [
            ("test", VRegExp asset_test);
            ("type", VString (str "asset/resource")) ] ]) ]);
    ("plugins", VArray [
       VNew HtmlWebpackPlugin [
         VObject [
           ("title", VString (str "Webpack Overview"));
           ("filename", VString (str "index.html"));
           ("template", VString (str "src/template.html")) ] ];
       VNew BundleAnalyzerPlugin [] ])
  ].

(** The configuration as the walkthrough that follows the module describes
    it, section by section: the top-level settings 1 to 4, the dev-server
    block, the rules and the plugins. *)
Definition walkthrough : value :=
  VObject [
    ("mode", VString (str "development"));
    ("entry", VObject [
       ("bundle", VString (path_resolve __dirname (str "src/index.js"))) ]);
    ("output", VObject [
       ("path", VString (path_resolve __dirname (str "dist")));
       ("filename", VString (str "[name][contenthash].js"));
       ("clean", VBoolean true);
       ("assetModuleFilename", VString (str "[name][ext]")) ]);
    ("devtool", VString (str "source-map"));
    ("devServer", VObject [
       ("static", VObject [
          ("directory", VString (path_resolve __dirname (str "dist"))) ]);
       ("port", VNumber 3000);
       ("open", VBoolean true);
       ("hot", VBoolean true);
       ("compress", VBoolean true);
       ("historyApiFallback", VBoolean true) ]);
    ("module", VObject [
       ("rules", VArray [
          VObject [
            ("test", VRegExp scss_test);
            ("use", VArray [ VString (str "style-loader");
                             VString (str "css-loader");
                             VString (str "sass-loader") ]) ];
          VObject [
            ("test", VRegExp js_test);
            ("exclude", VRegExp js_exclude);
            ("use", VObject [
               ("loader", VString (str "babel-loader"));
               ("options", VObject [
                  ("presets", VArray [ VString (str "@babel/preset-env") ])
                ]) ]) ];
          VObject [
            ("test", VRegExp asset_test);
            ("type", VString (str "asset/resource")) ] ]) ]);
    ("plugins", VArray [
       VNew HtmlWebpackPlugin [
         VObject [
           ("title", VString (str "Webpack App"));
           ("filename", VString (str "index.html"));
           ("template", VString (str "src/template.html")) ] ];
       VNew BundleAnalyzerPlugin [] ])
  ].

(** ** The bundler's reading of the configuration *)

(** The [i]-th transform rule, [module.rules[i]]. *)
Definition rule (i : nat) : value :=
  index i exports.["module"].["rules"].

(** A rule condition applied to the path of a resource: a regular
    expression is tested against it, a string has to be a prefix of it. *)
Fixpoint starts_with (pre p : jsstring) : bool :=
  match pre, p with
  | [], _ => true
  | a :: pre', b :: p' => (a =? b) && starts_with pre' p'
  | _ :: _, [] => false
  end.

Definition condition (c : value) (resource : jsstring) : bool :=
  match c with
  | VRegExp r => test r resource
  | VString s => starts_with s resource
  | _ => false
  end.

(** A rule applies to a resource when its [test], if any, matches and its
    [exclude], if any, does not. *)
Definition rule_applies (rl : value) (resource : jsstring) : bool :=
  match rl.["test"] with
  | VUndefined => true
  | c => condition c resource
  end
  &&
  match rl.["exclude"] with
  | VUndefined => true
  | c => negb (condition c resource)
  end.

(** The chain of a rule as it is written under [use]: an array of loader
    names, or one object with a [loader]. *)
Definition chain (rl : value) : list jsstring :=
  match rl.["use"] with
  | VArray xs =>
      flat_map (fun v => match v with VString s => [s] | _ => [] end) xs
  | VObject props =>
      match (VObject props).["loader"] with
      | VString s => [s]
      | _ => []
      end
  | _ => []
  end.

(** Loaders run from the last one written to the first. *)
Definition application_order (rl : value) : list jsstring :=
  rev (chain rl).

(** The name of the script emitted for the chunk of an entry. *)
Definition chunk_filename (name contenthash : jsstring) : jsstring :=
  match exports.["output"].["filename"] with
  | VString t => interpolate [("name", name); ("contenthash", contenthash)] t
  | _ => interpolate [("name", name)] (str "[name].js")
  end.

(** The name under which an asset is copied to the output directory. *)
Definition asset_filename (a : asset) : jsstring :=
  let env := [("name", asset_name a); ("ext", asset_ext a);
              ("path", asset_dir a); ("contenthash", asset_hash a);
              ("hash", asset_hash a)] in
  match exports.["output"].["assetModuleFilename"] with
  | VString t => interpolate env t
  | _ => interpolate env (str "[hash][ext]")
  end.

(** The token names of a template. *)
Definition tokens (t : value) : list jsstring :=
  match t with
  | VString s =>
      flat_map (fun p => match p with Token n => [n] | Lit _ => [] end)
               (pieces s)
  | _ => []
  end.

(** Case-insensitive suffix: the end of [p] is [suf] up to the case of
    ASCII letters ([suf] is in lower case). *)
Definition ends_with_nocase (suf p : jsstring) : Prop :=
  exists pre tail, p = pre ++ tail /\ map ascii_lower tail = suf.

(** [module.rules] as the list of its rules. *)
Definition module_rules : list value :=
  match exports.["module"].["rules"] with
  | VArray xs => xs
  | _ => []
  end.

(** The options object handed to the constructor of the [i]-th plugin. *)
Definition plugin_options (i : nat) : value :=
  match index i exports.["plugins"] with
  | VNew _ (o :: _) => o
  | _ => VUndefined
  end.

(** The name of the HTML document the first plugin writes and the path of
    the template it reads; without the option the plugin falls back on
    [index.html] and on [auto]. *)
Definition html_filename : jsstring :=
  match (plugin_options 0).["filename"] with
  | VString s => s
  | _ => str "index.html"
  end.

Definition html_template : jsstring :=
  match (plugin_options 0).["template"] with
  | VString s => s
  | _ => str "auto"
  end.

(** The resource the entry [k] starts from. *)
Definition entry_resource (k : string) : jsstring :=
  match exports.["entry"].[k] with
  | VString s => s
  | _ => []
  end.

(** ** The matcher and what a pattern consumes *)

Lemma pmatch_spec (r : RegExp) (p : pattern) :
  forall x k,
    pmatch r p x k = true <-> exists y, consumes r p x y /\ k y = true.
Proof.
  induction p as [ | c | | a IHa b IHb | a IHa b IHb | a IHa ];
    intros x k; simpl.
  - split.
    + intros H. exists x. auto.
    + intros [y [-> H]]. exact H.
  - destruct x as [ | ch x'].
    + split; [discriminate | ].
      intros [y [[ch [E _]] _]]. discriminate.
    + destruct (N.eqb_spec (canonicalize r ch) (canonicalize r c)) as [E | E].
      * split.
        -- intros H. exists x'. split; [exists ch; auto | exact H].
        -- intros [y [[ch' [E1 _]] H]]. injection E1 as -> ->. exact H.
      * split; [discriminate | ].
        intros [y [[ch' [E1 E2]] _]]. injection E1 as -> ->. contradiction.
  - destruct x as [ | ch x'].
    + split.
      * intros H. exists []. auto.
      * intros [y [[<- _] H]]. exact H.
    + destruct (multiline r && is_line_terminator ch) eqn:M.
      * split.
        -- intros H. exists (ch :: x'). repeat split; auto.
           right. exists ch, x'. auto.
        -- intros [y [[<- _] H]]. exact H.
      * split; [discriminate | ].
        intros [y [[_ [E | [ch' [x'' [E M']]]]] _]]; [discriminate | ].
        injection E as E1 E2. subst ch' x''. rewrite M in M'. discriminate.
  - rewrite IHa. split.
    + intros [z [Ha Hb]]. apply IHb in Hb. destruct Hb as [y [Hb Hk]].
      exists y. split; [exists z; auto | exact Hk].
    + intros [y [[z [Ha Hb]] Hk]]. exists z. split; [exact Ha | ].
      apply IHb. exists y. auto.
  - rewrite orb_true_iff, IHa, IHb. split.
    + intros [[y [H Hk]] | [y [H Hk]]]; exists y; auto.
    + intros [y [[H | H] Hk]]; [left | right]; exists y; auto.
  - apply IHa.
Qed.

(** A test succeeds exactly when the pattern matches at the head of some
    tail of the input. *)
Lemma test_spec (r : RegExp) (s : jsstring) :
  test r s = true <->
  exists pre rest y, s = pre ++ rest /\ consumes r (source r) rest y.
Proof.
  unfold test. induction s as [ | c s IH]; simpl; rewrite orb_true_iff.
  - rewrite pmatch_spec. split.
    + intros [[y [H _]] | H]; [ | discriminate].
      exists [], [], y. auto.
    + intros [pre [rest [y [E H]]]]. left.
      symmetry in E. apply app_eq_nil in E. destruct E as [-> ->].
      exists y. auto.
  - rewrite pmatch_spec, IH. split.
    + intros [[y [H _]] | [pre [rest [y [E H]]]]].
      * exists [], (c :: s), y. auto.
      * exists (c :: pre), rest, y. subst s. auto.
    + intros [pre [rest [y [E H]]]]. destruct pre as [ | c' pre].
      * left. simpl in E. subst rest. exists y. auto.
      * right. injection E as -> ->. exists pre, rest, y. auto.
Qed.

(** Without the i flag a run of characters consumes itself. *)
Lemma consumes_chars_exact (r : RegExp) (w : jsstring) :
  ignoreCase r = false ->
  forall x y, consumes r (chars w) x y <-> x = w ++ y.
Proof.
  intros I. induction w as [ | c w IH]; intros x y; simpl.
  - tauto.
  - unfold canonicalize. rewrite I. split.
    + intros [z [[ch [-> ->]] H]]. apply IH in H. subst z. reflexivity.
    + intros ->. exists (w ++ y). split; [exists c; auto | apply IH; reflexivity].
Qed.

(** With the i flag, a character that is ASCII and not an upper-case letter
    matches the code units that lower-case to it. *)
Lemma canonicalize_fold (r : RegExp) (c ch : code_unit) :
  ignoreCase r = true -> c < 128 -> ascii_lower c = c ->
  canonicalize r ch = canonicalize r c <-> ascii_lower ch = c.
Proof.
  intros I Hc L. unfold canonicalize, toUpperCase. rewrite I.
  revert L. unfold ascii_lower, ascii_upper.
  repeat match goal with
         | |- context [?a <=? ?b] => destruct (N.leb_spec a b)
         | |- context [?a <? ?b] => destruct (N.ltb_spec a b)
         end; simpl; try lia.
Qed.

Lemma consumes_chars_fold (r : RegExp) (w : jsstring) :
  ignoreCase r = true ->
  Forall (fun c => c < 128 /\ ascii_lower c = c) w ->
  forall x y,
    consumes r (chars w) x y <->
    exists t, x = t ++ y /\ map ascii_lower t = w.
Proof.
  intros I F. induction F as [ | c w [Hc L] F IH]; intros x y; simpl.
  - split.
    + intros ->. exists []. auto.
    + intros [t [-> E]]. apply map_eq_nil in E. subst t. reflexivity.
  - split.
    + intros [z [[ch [-> E]] H]]. apply IH in H. destruct H as [t [-> Ht]].
      exists (ch :: t). simpl. split; [reflexivity | ].
      apply (proj1 (canonicalize_fold r c ch I Hc L)) in E.
      rewrite E, Ht. reflexivity.
    + intros [t [-> E]]. destruct t as [ | ch t]; [discriminate | ].
      simpl in E. injection E as E1 E2.
      exists (t ++ y). split.
      * exists ch. split; [reflexivity | ].
        apply (proj2 (canonicalize_fold r c ch I Hc L)). exact E1.
      * apply IH. exists t. auto.
Qed.

(** A pattern made of a run of characters and [$], without flags, tests for
    a suffix. *)
Lemma test_end_anchored (r : RegExp) (w : jsstring) :
  ignoreCase r = false -> multiline r = false ->
  source r = Seq (chars w) AssertEnd ->
  forall p, test r p = true <-> ends_with w p.
Proof.
  intros I M S p. rewrite test_spec, S. cbn [consumes]. split.
  - intros [pre [rest [y [E [z [H [Hz He]]]]]]].
    apply (consumes_chars_exact r w I) in H.
    destruct He as [He | [ch [x' [_ He]]]].
    + exists pre. subst. rewrite app_nil_r. reflexivity.
    + rewrite M in He. discriminate.
  - intros [pre ->]. exists pre, w, []. split; [reflexivity | ].
    exists []. split; [ | auto].
    apply (consumes_chars_exact r w I). rewrite app_nil_r. reflexivity.
Qed.

(** A pattern made of a run of characters alone, without flags, tests for a
    substring. *)
Lemma test_unanchored (r : RegExp) (w : jsstring) :
  ignoreCase r = false ->
  source r = chars w ->
  forall p, test r p = true <-> contains w p.
Proof.
  intros I S p. rewrite test_spec, S. split.
  - intros [pre [rest [y [E H]]]].
    apply (consumes_chars_exact r w I) in H. exists pre, y. congruence.
  - intros [pre [post ->]]. exists pre, (w ++ post), post. split; auto.
    apply (consumes_chars_exact r w I). reflexivity.
Qed.

Lemma rule_0 :
  rule 0 =
  VObject [ ("test", VRegExp scss_test);
            ("use", VArray [ VString (str "style-loader");
                             VString (str "css-loader");
                             VString (str "sass-loader") ]) ].
Proof. reflexivity. Qed.

Lemma rule_1_conditions :
  (rule 1).["test"] = VRegExp js_test /\
  (rule 1).["exclude"] = VRegExp js_exclude.
Proof. split; reflexivity. Qed.

Lemma rule_2_conditions :
  (rule 2).["test"] = VRegExp asset_test /\
  (rule 2).["exclude"] = VUndefined.
Proof. split; reflexivity. Qed.

Lemma script_rule_applies (p : jsstring) :
  rule_applies (rule 1) p = test js_test p && negb (test js_exclude p).
Proof. reflexivity. Qed.

Lemma js_exclude_spec (p : jsstring) :
  test js_exclude p = true <-> contains (str "node_modules") p.
Proof. apply test_unanchored; reflexivity. Qed.

Lemma js_test_spec (p : jsstring) :
  test js_test p = true <-> ends_with (str ".js") p.
Proof. apply test_end_anchored; reflexivity. Qed.

(** The extensions of the asset pattern, each lower case ASCII. *)
Lemma lower_ascii_literal (e : string) :
  In e ["png"; "svg"; "jpg"; "jpeg"; "gif"] ->
  Forall (fun c => c < 128 /\ ascii_lower c = c) (str e).
Proof.
  simpl. intros [<- | [<- | [<- | [<- | [<- | []]]]]];
    repeat constructor.
Qed.

Lemma asset_alternatives (z y : jsstring) :
  consumes asset_test
    (Alt (lit "png") (Alt (lit "svg") (Alt (lit "jpg")
       (Alt (lit "jpeg") (lit "gif"))))) z y <->
  exists e, In e ["png"; "svg"; "jpg"; "jpeg"; "gif"] /\
            exists t, z = t ++ y /\ map ascii_lower t = str e.
Proof.
  assert (L : forall e, In e ["png"; "svg"; "jpg"; "jpeg"; "gif"] ->
              (consumes asset_test (lit e) z y <->
               exists t, z = t ++ y /\ map ascii_lower t = str e)).
  { intros e He. apply consumes_chars_fold;
      [reflexivity | apply lower_ascii_literal; exact He]. }
  cbn [consumes]. split.
  - intros [H | [H | [H | [H | H]]]];
      [ exists "png" | exists "svg" | exists "jpg" | exists "jpeg"
      | exists "gif" ];
      (split; [simpl; tauto | apply L; [simpl; tauto | exact H]]).
  - intros [e [He H]]. apply (L e He) in H.
    simpl in He.
    destruct He as [<- | [<- | [<- | [<- | [<- | []]]]]]; tauto.
Qed.

Lemma asset_test_spec (p : jsstring) :
  test asset_test p = true <->
  exists e, In e [".png"; ".svg"; ".jpg"; ".jpeg"; ".gif"] /\
            ends_with_nocase (str e) p.
Proof.
  rewrite test_spec.
  change (source asset_test)
    with (Seq (Char 46)
            (Seq (Group (Alt (lit "png") (Alt (lit "svg") (Alt (lit "jpg")
                    (Alt (lit "jpeg") (lit "gif"))))))
                 AssertEnd)).
  cbn [consumes]. split.
  - intros [pre [rest [y [E [z [[ch [-> Hc]] [z' [Ha [-> He]]]]]]]]].
    apply asset_alternatives in Ha. destruct Ha as [e [Hin [t [-> Ht]]]].
    destruct He as [-> | [c' [x' [_ He]]]]; [ | discriminate].
    apply (proj1 (canonicalize_fold asset_test 46 ch eq_refl eq_refl eq_refl))
      in Hc.
    assert (T : map ascii_lower (ch :: t ++ []) = 46 :: str e)
      by (rewrite app_nil_r; simpl; rewrite Hc, Ht; reflexivity).
    simpl in Hin.
    destruct Hin as [<- | [<- | [<- | [<- | [<- | []]]]]];
      [ exists ".png" | exists ".svg" | exists ".jpg" | exists ".jpeg"
      | exists ".gif" ];
      (split; [simpl; tauto | exists pre, (ch :: t ++ []); auto]).
  - intros [e [Hin [pre [tail [-> Ht]]]]].
    assert (exists e', In e' ["png"; "svg"; "jpg"; "jpeg"; "gif"] /\
                       str e = 46 :: str e') as [e' [Hin' Ee]].
    { simpl in Hin.
      destruct Hin as [<- | [<- | [<- | [<- | [<- | []]]]]];
        [ exists "png" | exists "svg" | exists "jpg" | exists "jpeg"
        | exists "gif" ]; (split; [simpl; tauto | reflexivity]). }
    rewrite Ee in Ht. destruct tail as [ | ch t]; [discriminate | ].
    simpl in Ht. injection Ht as Hc Ht.
    exists pre, (ch :: t), []. split; [reflexivity | ].
    exists t. split.
    + exists ch. split; [reflexivity | ].
      apply (proj2 (canonicalize_fold asset_test 46 ch eq_refl eq_refl eq_refl)).
      exact Hc.
    + exists []. split; [ | auto].
      apply asset_alternatives. exists e'. split; [exact Hin' | ].
      exists t. rewrite app_nil_r. auto.
Qed.

(** ** The properties of the specification *)

(** C1.  The script rule, [module.rules[1]], applies to a path exactly when
    the path matches [/\.js$/] and does not match [/node_modules/]: it
    accepts every path that ends in [.js] and has no [node_modules] in it,
    and rejects every other path, the [.js] files of the dependency
    directory among them. *)
Theorem script_rule_matcher (p : jsstring) :
  rule_applies (rule 1) p = test js_test p && negb (test js_exclude p) /\
  (rule_applies (rule 1) p = true <->
   ends_with (str ".js") p /\ ~ contains (str "node_modules") p).
Proof.
  split; [reflexivity | ].
  rewrite script_rule_applies, andb_true_iff, negb_true_iff, js_test_spec.
  pose proof (js_exclude_spec p) as X.
  split; intros [H1 H2]; split; auto.
  - intros C. apply X in C. congruence.
  - destruct (test js_exclude p); auto.
    exfalso. apply H2, X. reflexivity.
Qed.

(** C2.  The test of the style rule, [module.rules[0].test], matches a path
    exactly when the path ends with [.scss]; the rule has no other
    condition, so it applies to those paths and to no other. *)
Theorem style_rule_matcher (p : jsstring) :
  (condition (rule 0).["test"] p = true <-> ends_with (str ".scss") p) /\
  (rule_applies (rule 0) p = true <-> ends_with (str ".scss") p).
Proof.
  assert (T : test scss_test p = true <-> ends_with (str ".scss") p)
    by (apply test_end_anchored; reflexivity).
  split.
  - exact T.
  - change (rule_applies (rule 0) p) with (test scss_test p && true).
    rewrite andb_true_r. exact T.
Qed.

(** C3.  The test of the asset rule, [module.rules[2].test], matches a path
    exactly when the path ends with one of [.png], [.svg], [.jpg], [.jpeg],
    [.gif], the case of the letters not counting; the rule has no other
    condition. *)
Theorem asset_rule_matcher (p : jsstring) :
  (condition (rule 2).["test"] p = true <->
   exists e, In e [".png"; ".svg"; ".jpg"; ".jpeg"; ".gif"] /\
             ends_with_nocase (str e) p) /\
  (rule_applies (rule 2) p = true <->
   exists e, In e [".png"; ".svg"; ".jpg"; ".jpeg"; ".gif"] /\
             ends_with_nocase (str e) p).
Proof.
  split.
  - apply asset_test_spec.
  - change (rule_applies (rule 2) p) with (test asset_test p && true).
    rewrite andb_true_r. apply asset_test_spec.
Qed.

(** C4.  The output filename template has the tokens [[name]] and
    [[contenthash]]; the configuration has the single entry [bundle], and
    the script emitted for it is named [bundle], then the content hash,
    then [.js]. *)
Theorem output_filename_tokens :
  tokens exports.["output"].["filename"]
  = [str "name"; str "contenthash"] /\
  keys exports.["entry"] = ["bundle"] /\
  forall h, chunk_filename (str "bundle") h = str "bundle" ++ h ++ str ".js".
Proof.
  split; [reflexivity | ]. split; [reflexivity | ].
  intros h. reflexivity.
Qed.

(** C5.  The chain of the style rule has exactly three loaders, written
    inject ([style-loader]), resolve ([css-loader]), preprocess
    ([sass-loader]); they are applied in the reverse order: preprocess,
    resolve, inject. *)
Theorem style_chain_order :
  chain (rule 0)
  = [str "style-loader"; str "css-loader"; str "sass-loader"] /\
  List.length (chain (rule 0)) = 3%nat /\
  map loader_stage (chain (rule 0))
  = [Some Inject; Some ResolveImports; Some Preprocess] /\
  map loader_stage (application_order (rule 0))
  = [Some Preprocess; Some ResolveImports; Some Inject].
Proof. repeat split. Qed.

(** C6.  The dev server serves the directory the output is written to,
    [path.resolve(__dirname, "dist")], on port 3000, with [open] and [hot]
    both true. *)
Theorem dev_server_descriptor :
  exports.["devServer"].["static"].["directory"]
  = exports.["output"].["path"] /\
  exports.["output"].["path"]
  = VString (path_resolve __dirname (str "dist")) /\
  exports.["devServer"].["port"] = VNumber 3000 /\
  exports.["devServer"].["open"] = VBoolean true /\
  exports.["devServer"].["hot"] = VBoolean true.
Proof. repeat split. Qed.

(** C7.  None of [devtool], [compress], [historyApiFallback] is a property
    of the exported object, of its [devServer], or of anything inside it,
    while the walkthrough has [devtool] at top level and the other two in
    its [devServer] block. *)
Theorem walkthrough_only_options :
  Forall (fun k => has_own k exports = false /\
                   has_own k exports.["devServer"] = false /\
                   occurs k exports = false /\
                   occurs k walkthrough = true)
         ["devtool"; "compress"; "historyApiFallback"] /\
  has_own "devtool" walkthrough = true /\
  has_own "compress" walkthrough.["devServer"] = true /\
  has_own "historyApiFallback" walkthrough.["devServer"] = true.
Proof. repeat constructor. Qed.

(** C8.  The exported object declares [mode: "production"], not
    ["development"], while the walkthrough gives the mode as
    ['development']. *)
Theorem mode_is_production :
  exports.["mode"] = VString (str "production") /\
  exports.["mode"] <> VString (str "development") /\
  walkthrough.["mode"] = VString (str "development").
Proof.
  split; [reflexivity | ]. split; [ | reflexivity].
  intros H. vm_compute in H. discriminate H.
Qed.

(** C9.  The exclusion of the script rule looks for [node_modules] anywhere
    in the path: a path with that substring at any position matches
    [exclude], and the script rule does not apply to it, whatever its
    suffix. *)
Theorem script_rule_excludes_substring (p : jsstring) :
  contains (str "node_modules") p ->
  condition (rule 1).["exclude"] p = true /\
  rule_applies (rule 1) p = false.
Proof.
  intros H. apply js_exclude_spec in H.
  rewrite script_rule_applies.
  change (condition (rule 1).["exclude"] p) with (test js_exclude p).
  rewrite H, andb_false_r. auto.
Qed.

(** C10.  The asset filename template has the tokens [[name]] and [[ext]]
    and no hash token: an asset is copied under its base name followed by
    its extension, so two assets with the same base name and extension get
    the same output name, whatever their directories and contents. *)
Theorem asset_filename_has_no_hash :
  tokens exports.["output"].["assetModuleFilename"]
  = [str "name"; str "ext"] /\
  (forall a, asset_filename a = asset_name a ++ asset_ext a) /\
  (forall d1 d2 h1 h2 n e,
      asset_filename (mkAsset d1 n e h1) = asset_filename (mkAsset d2 n e h2)).
Proof.
  split; [reflexivity | ].
  assert (A : forall a, asset_filename a = asset_name a ++ asset_ext a).
  { intros a. unfold asset_filename. cbn. rewrite app_nil_r. reflexivity. }
  split; [exact A | ].
  intros. rewrite !A. reflexivity.
Qed.

(** ** Paths, separators and letter case *)

(** The last code unit of a path with a given suffix. *)
Lemma ends_with_last (s : jsstring) (c : code_unit) (p : jsstring) :
  ends_with (s ++ [c]) p -> last p 0 = c.
Proof.
  intros [pre ->]. rewrite app_assoc. apply last_last.
Qed.

Lemma ends_with_nocase_last (s : jsstring) (c : code_unit) (p : jsstring) :
  ends_with_nocase (s ++ [c]) p -> ascii_lower (last p 0) = c.
Proof.
  intros [pre [tail [-> E]]].
  apply map_eq_app in E. destruct E as [t1 [t2 [-> [_ E]]]].
  destruct t2 as [ | x [ | y t2]]; try discriminate.
  injection E as E. rewrite app_assoc, last_last. exact E.
Qed.

Lemma ascii_lower_idem (c : code_unit) :
  ascii_lower (ascii_lower c) = ascii_lower c.
Proof.
  unfold ascii_lower.
  destruct (N.leb_spec 65 c), (N.leb_spec c 90); simpl;
    repeat match goal with
           | |- context [?a <=? ?b] => destruct (N.leb_spec a b)
           end; simpl; lia.
Qed.

Lemma ascii_lower_upper (c : code_unit) :
  ascii_lower (ascii_upper c) = ascii_lower c.
Proof.
  unfold ascii_lower, ascii_upper.
  destruct (N.leb_spec 97 c), (N.leb_spec c 122); simpl;
    repeat match goal with
           | |- context [?a <=? ?b] => destruct (N.leb_spec a b)
           end; simpl; lia.
Qed.

Lemma ascii_lower_slash (c : code_unit) : ascii_lower c = 47 -> c = 47.
Proof.
  unfold ascii_lower.
  repeat match goal with
         | |- context [?a <=? ?b] => destruct (N.leb_spec a b)
         end; simpl; lia.
Qed.

(** A suffix without a slash is a suffix of what follows any slash. *)
Lemma ends_with_after_slash (suf d f : jsstring) :
  ~ In 47 suf ->
  ends_with suf (d ++ 47 :: f) <-> ends_with suf f.
Proof.
  intros N. split.
  - intros [pre E]. apply app_eq_app in E.
    destruct E as [l [[-> E] | [-> E]]].
    + exfalso. apply N. rewrite E. apply in_or_app. right. left. reflexivity.
    + destruct l as [ | c l].
      * exfalso. apply N. simpl in E. rewrite <- E. left. reflexivity.
      * injection E as _ ->. exists l. reflexivity.
  - intros [pre ->]. exists (d ++ 47 :: pre).
    rewrite <- app_assoc. reflexivity.
Qed.

Lemma ends_with_nocase_after_slash (suf d f : jsstring) :
  ~ In 47 suf ->
  ends_with_nocase suf (d ++ 47 :: f) <-> ends_with_nocase suf f.
Proof.
  intros N.
  assert (S : forall t, In 47 t -> map ascii_lower t = suf -> False).
  { intros t Ht E. apply N. rewrite <- E.
    change 47 with (ascii_lower 47). apply in_map. exact Ht. }
  split.
  - intros [pre [tail [E Ht]]]. apply app_eq_app in E.
    destruct E as [l [[-> E] | [-> E]]].
    + exfalso. apply (S tail); [ | exact Ht].
      rewrite E. apply in_or_app. right. left. reflexivity.
    + destruct l as [ | c l].
      * exfalso. apply (S tail); [ | exact Ht].
        simpl in E. rewrite <- E. left. reflexivity.
      * injection E as _ ->. exists l, tail. auto.
  - intros [pre [tail [-> Ht]]]. exists (d ++ 47 :: pre), tail.
    rewrite <- app_assoc. auto.
Qed.

(** A substring without a slash lies on one side of any slash. *)
Lemma contains_across_slash (w d f : jsstring) :
  ~ In 47 w ->
  contains w (d ++ 47 :: f) <-> contains w d \/ contains w f.
Proof.
  intros N. split.
  - intros [pre [post E]]. apply app_eq_app in E.
    destruct E as [l [[-> E] | [-> E]]].
    + apply app_eq_app in E. destruct E as [l2 [[-> E] | [-> E]]].
      * destruct l2 as [ | c l2].
        -- left. exists pre, []. rewrite !app_nil_r. reflexivity.
        -- exfalso. apply N. apply in_or_app. right. left.
           injection E as E _. auto.
      * left. exists pre, l2. reflexivity.
    + destruct l as [ | c l].
      * simpl in E. destruct w as [ | c w].
        -- left. exists d, []. rewrite !app_nil_r. reflexivity.
        -- exfalso. apply N. left. injection E as E _. auto.
      * injection E as _ ->. right. exists l, post. reflexivity.
  - intros [[pre [post ->]] | [pre [post ->]]].
    + exists pre, (post ++ 47 :: f). rewrite <- !app_assoc. reflexivity.
    + exists (d ++ 47 :: pre), post. rewrite <- app_assoc. reflexivity.
Qed.

(** ** The rules on paths *)

Ltac no_slash :=
  let H := fresh in
  intros H; cbn in H;
  repeat (destruct H as [H | H]; [discriminate H | ]); exact H.

Lemma style_applies_spec (p : jsstring) :
  rule_applies (rule 0) p = true <-> ends_with (str ".scss") p.
Proof.
  change (rule_applies (rule 0) p) with (test scss_test p && true).
  rewrite andb_true_r. apply test_end_anchored; reflexivity.
Qed.

Lemma asset_applies_spec (p : jsstring) :
  rule_applies (rule 2) p = true <->
  exists e, In e [".png"; ".svg"; ".jpg"; ".jpeg"; ".gif"] /\
            ends_with_nocase (str e) p.
Proof.
  change (rule_applies (rule 2) p) with (test asset_test p && true).
  rewrite andb_true_r. apply asset_test_spec.
Qed.

Lemma asset_ext_no_slash (e : string) :
  In e [".png"; ".svg"; ".jpg"; ".jpeg"; ".gif"] -> ~ In 47 (str e).
Proof.
  simpl. intros [<- | [<- | [<- | [<- | [<- | []]]]]]; no_slash.
Qed.

(** Every path the asset rule takes ends in g or f, in either case. *)
Lemma asset_last (p : jsstring) :
  rule_applies (rule 2) p = true ->
  ascii_lower (last p 0) = 103 \/ ascii_lower (last p 0) = 102.
Proof.
  intros H. apply asset_applies_spec in H. destruct H as [e [Hin H]].
  simpl in Hin. destruct Hin as [<- | [<- | [<- | [<- | [<- | []]]]]].
  - left. apply (ends_with_nocase_last (str ".pn") 103 p H).
  - left. apply (ends_with_nocase_last (str ".sv") 103 p H).
  - left. apply (ends_with_nocase_last (str ".jp") 103 p H).
  - left. apply (ends_with_nocase_last (str ".jpe") 103 p H).
  - right. apply (ends_with_nocase_last (str ".gi") 102 p H).
Qed.

Lemma style_applies_after_slash (d f : jsstring) :
  rule_applies (rule 0) (d ++ 47 :: f) = rule_applies (rule 0) f.
Proof.
  apply eq_true_iff_eq. rewrite !style_applies_spec.
  apply ends_with_after_slash. no_slash.
Qed.

Lemma asset_applies_after_slash (d f : jsstring) :
  rule_applies (rule 2) (d ++ 47 :: f) = rule_applies (rule 2) f.
Proof.
  apply eq_true_iff_eq. rewrite !asset_applies_spec.
  split; intros [e [Hin H]]; exists e; (split; [exact Hin | ]);
    apply (ends_with_nocase_after_slash (str e) d f (asset_ext_no_slash e Hin));
    exact H.
Qed.

Lemma exclude_across_slash (d f : jsstring) :
  test js_exclude (d ++ 47 :: f) = test js_exclude d || test js_exclude f.
Proof.
  apply eq_true_iff_eq. rewrite orb_true_iff, !js_exclude_spec.
  apply contains_across_slash. no_slash.
Qed.

Lemma script_applies_after_slash (d f : jsstring) :
  rule_applies (rule 1) (d ++ 47 :: f)
  = rule_applies (rule 1) f && negb (test js_exclude d).
Proof.
  rewrite !script_rule_applies, exclude_across_slash.
  assert (T : test js_test (d ++ 47 :: f) = test js_test f).
  { apply eq_true_iff_eq. rewrite !js_test_spec.
    apply ends_with_after_slash. no_slash. }
  rewrite T.
  destruct (test js_test f), (test js_exclude d), (test js_exclude f);
    reflexivity.
Qed.

Lemma ends_with_nocase_map (g : code_unit -> code_unit)
      (suf p : jsstring) :
  (forall c, ascii_lower (g c) = ascii_lower c) ->
  ends_with_nocase suf (map g p) <-> ends_with_nocase suf p.
Proof.
  intros G.
  assert (M : forall t, map ascii_lower (map g t) = map ascii_lower t).
  { intros t. rewrite map_map. apply map_ext. exact G. }
  split.
  - intros [pre [tail [E Ht]]]. apply map_eq_app in E.
    destruct E as [p1 [p2 [-> [_ <-]]]].
    exists p1, p2. rewrite M in Ht. auto.
  - intros [pre [tail [-> Ht]]]. exists (map g pre), (map g tail).
    rewrite map_app, M. auto.
Qed.

Lemma chunk_filename_eq (n h : jsstring) :
  chunk_filename n h = n ++ h ++ str ".js".
Proof. reflexivity. Qed.

Lemma asset_filename_eq (a : asset) :
  asset_filename a = asset_name a ++ asset_ext a.
Proof. unfold asset_filename. cbn. rewrite app_nil_r. reflexivity. Qed.

Lemma chunk_filename_last (n h : jsstring) :
  last (chunk_filename n h) 0 = 115.
Proof.
  apply (ends_with_last (str ".j") 115). exists (n ++ h).
  rewrite chunk_filename_eq, <- app_assoc. reflexivity.
Qed.


(** ** Further properties of the configuration *)

(** X1.  The three rules are exclusive: whatever the path, at most one of
    the rules of [module.rules] applies to it. *)
Theorem at_most_one_rule_applies (p : jsstring) :
  (List.length (filter (fun rl => rule_applies rl p) module_rules) <= 1)%nat.
Proof.
  assert (E01 : rule_applies (rule 0) p = true ->
                rule_applies (rule 1) p = true -> False).
  { intros H0 H1. apply style_applies_spec in H0.
    rewrite script_rule_applies, andb_true_iff, js_test_spec in H1.
    destruct H0 as [a ->]. destruct H1 as [[b E] _].
    apply (f_equal (@rev code_unit)) in E.
    rewrite !rev_app_distr in E. cbn in E. congruence. }
  assert (E02 : rule_applies (rule 0) p = true ->
                rule_applies (rule 2) p = true -> False).
  { intros H0 H2. apply style_applies_spec in H0.
    apply (ends_with_last (str ".scs") 115) in H0.
    apply asset_last in H2. rewrite H0 in H2.
    destruct H2 as [H2 | H2]; discriminate H2. }
  assert (E12 : rule_applies (rule 1) p = true ->
                rule_applies (rule 2) p = true -> False).
  { intros H1 H2.
    rewrite script_rule_applies, andb_true_iff, js_test_spec in H1.
    destruct H1 as [H1 _].
    apply (ends_with_last (str ".j") 115) in H1.
    apply asset_last in H2. rewrite H1 in H2.
    destruct H2 as [H2 | H2]; discriminate H2. }
  change module_rules with [rule 0; rule 1; rule 2].
  cbn [filter].
  destruct (rule_applies (rule 0) p), (rule_applies (rule 1) p),
    (rule_applies (rule 2) p); simpl; try lia; exfalso; auto.
Qed.

(** X2.  The style rule and the asset rule look at the file name only:
    putting a file under any directory does not change whether they apply
    to it. *)
Theorem style_and_asset_rules_ignore_directory (d f : jsstring) :
  rule_applies (rule 0) (d ++ str "/" ++ f) = rule_applies (rule 0) f /\
  rule_applies (rule 2) (d ++ str "/" ++ f) = rule_applies (rule 2) f.
Proof.
  split.
  - apply style_applies_after_slash.
  - apply asset_applies_after_slash.
Qed.

(** X3.  The exclusion of the script rule works segment by segment: it
    matches [d/f] exactly when it matches [d] or [f], so the script rule
    applies to [d/f] exactly when it applies to [f] and [d] has no
    [node_modules] in it. *)
Theorem script_rule_across_directories (d f : jsstring) :
  test js_exclude (d ++ str "/" ++ f)
  = test js_exclude d || test js_exclude f /\
  rule_applies (rule 1) (d ++ str "/" ++ f)
  = rule_applies (rule 1) f && negb (test js_exclude d).
Proof.
  split.
  - apply exclude_across_slash.
  - apply script_applies_after_slash.
Qed.

(** X4.  The asset rule does not depend on the case of ASCII letters
    anywhere in the path: lower-casing or upper-casing the whole path does
    not change whether it applies. *)
Theorem asset_rule_ignores_case (p : jsstring) :
  rule_applies (rule 2) (map ascii_lower p) = rule_applies (rule 2) p /\
  rule_applies (rule 2) (map ascii_upper p) = rule_applies (rule 2) p.
Proof.
  split; apply eq_true_iff_eq; rewrite !asset_applies_spec;
    split; intros [e [Hin H]]; exists e; (split; [exact Hin | ]).
  - apply (ends_with_nocase_map ascii_lower _ _ ascii_lower_idem). exact H.
  - apply (ends_with_nocase_map ascii_lower _ _ ascii_lower_idem). exact H.
  - apply (ends_with_nocase_map ascii_upper _ _ ascii_lower_upper). exact H.
  - apply (ends_with_nocase_map ascii_upper _ _ ascii_lower_upper). exact H.
Qed.

(** X5.  When [path.resolve] puts the entry at [__dirname/src/index.js],
    the entry is handled by the script rule exactly when [__dirname] has no
    [node_modules] in it, and never by the style or the asset rule. *)
Theorem entry_is_handled_by_script_rule :
  path_resolve __dirname (str "src/index.js")
  = __dirname ++ str "/src/index.js" ->
  rule_applies (rule 1) (entry_resource "bundle")
  = negb (test js_exclude __dirname) /\
  (rule_applies (rule 1) (entry_resource "bundle") = true <->
   ~ contains (str "node_modules") __dirname) /\
  rule_applies (rule 0) (entry_resource "bundle") = false /\
  rule_applies (rule 2) (entry_resource "bundle") = false.
Proof.
  intros R.
  change (entry_resource "bundle")
    with (path_resolve __dirname (str "src/index.js")).
  rewrite R.
  change (__dirname ++ str "/src/index.js")
    with (__dirname ++ 47 :: str "src/index.js").
  rewrite script_applies_after_slash, style_applies_after_slash,
    asset_applies_after_slash.
  assert (A : rule_applies (rule 1) (str "src/index.js")
              && negb (test js_exclude __dirname)
              = negb (test js_exclude __dirname)) by reflexivity.
  rewrite A. repeat split; try reflexivity.
  - intros H C. apply js_exclude_spec in C. rewrite C in H. discriminate.
  - intros H. destruct (test js_exclude __dirname) eqn:T; [ | reflexivity].
    exfalso. apply H, js_exclude_spec. exact T.
Qed.

(** X6.  For one entry name the content hash decides the name of the
    emitted script: two hashes give the same file name only when they are
    the same hash. *)
Theorem hash_decides_chunk_filename (n h1 h2 : jsstring) :
  chunk_filename n h1 = chunk_filename n h2 <-> h1 = h2.
Proof.
  rewrite !chunk_filename_eq. split.
  - intros E. apply app_inv_head in E. apply app_inv_tail in E. exact E.
  - intros ->. reflexivity.
Qed.



(** X9.  The emitted script never has the name of the HTML document the
    first plugin writes, whatever the entry name and the hash. *)
Theorem script_never_named_as_html (n h : jsstring) :
  html_filename = str "index.html" /\
  chunk_filename n h <> html_filename.
Proof.
  split; [reflexivity | ].
  intros E. pose proof (chunk_filename_last n h) as L.
  rewrite E in L. discriminate L.
Qed.

(** X10.  An asset the asset rule takes, copied under its base name and
    extension, is written neither over the HTML document nor over an
    emitted script. *)
Theorem asset_never_overwrites_html_or_script (a : asset) (p : jsstring) :
  rule_applies (rule 2) p = true ->
  ends_with (asset_name a ++ asset_ext a) p ->
  asset_filename a <> html_filename /\
  forall n h, asset_filename a <> chunk_filename n h.
Proof.
  intros H S. rewrite asset_filename_eq.
  apply asset_last in H.
  destruct (list_eq_dec N.eq_dec (asset_name a ++ asset_ext a) [])
    as [E | NE].
  - rewrite E. split; [discriminate | ].
    intros n h C. pose proof (chunk_filename_last n h) as L.
    rewrite <- C in L. discriminate L.
  - destruct (exists_last NE) as [l [c E]]. rewrite E in *.
    pose proof (ends_with_last l c p S) as Lp. rewrite Lp in H.
    assert (Lq : last (l ++ [c]) 0 = c) by apply last_last.
    split.
    + intros C. rewrite C in Lq. vm_compute in Lq. rewrite <- Lq in H.
      destruct H as [H | H]; discriminate H.
    + intros n h C. rewrite C, chunk_filename_last in Lq.
      rewrite <- Lq in H. destruct H as [H | H]; discriminate H.
Qed.

Ltac by_key k :=
  repeat match goal with
         | |- context [String.eqb ?a k] =>
             destruct (String.eqb_spec a k); [subst k; cbn | ]
         end;
  try reflexivity; try discriminate.

(** X11.  The walkthrough and the module agree on the entry, on the rules,
    on every property of [output] and on every property the module gives
    [devServer]; every top-level property of the module is one of the
    walkthrough, and the HTML plugin gets the same file name and template
    but another title. *)
Theorem walkthrough_agrees_with_module :
  walkthrough.["entry"] = exports.["entry"] /\
  walkthrough.["module"] = exports.["module"] /\
  (forall k, walkthrough.["output"].[k] = exports.["output"].[k]) /\
  (forall k, has_own k exports.["devServer"] = true ->
             walkthrough.["devServer"].[k] = exports.["devServer"].[k]) /\
  (forall k, has_own k exports = true -> has_own k walkthrough = true) /\
  (forall o o', index 0 exports.["plugins"] = VNew HtmlWebpackPlugin [o] ->
                index 0 walkthrough.["plugins"]
                = VNew HtmlWebpackPlugin [o'] ->
                o.["filename"] = o'.["filename"] /\
                o.["template"] = o'.["template"] /\
                o.["title"] <> o'.["title"]).
Proof.
  split; [reflexivity | ]. split; [reflexivity | ].
  split; [ | split; [ | split]].
  - intros k.
    let w := eval cbn in walkthrough.["output"] in
    change walkthrough.["output"] with w.
    let e := eval cbn in exports.["output"] in
    change exports.["output"] with e.
    cbn -[String.eqb]. by_key k.
  - intros k.
    let w := eval cbn in walkthrough.["devServer"] in
    change walkthrough.["devServer"] with w.
    let e := eval cbn in exports.["devServer"] in
    change exports.["devServer"] with e.
    cbn -[String.eqb]. by_key k.
  - intros k. cbn -[String.eqb]. by_key k.
  - intros o o' Ho Ho'. cbn in Ho, Ho'.
    injection Ho as <-. injection Ho' as <-.
    split; [reflexivity | ]. split; [reflexivity | ].
    intros C. vm_compute in C. discriminate C.
Qed.

(** X12.  None of the rules applies to the template of the HTML plugin,
    [src/template.html], in whatever directory the project lies. *)
Theorem html_template_matches_no_rule (d : jsstring) :
  html_template = str "src/template.html" /\
  Forall (fun rl => rule_applies rl (d ++ str "/" ++ html_template) = false)
         module_rules.
Proof.
  split; [reflexivity | ].
  change module_rules with [rule 0; rule 1; rule 2].
  change (d ++ str "/" ++ html_template)
    with (d ++ 47 :: str "src/template.html").
  repeat constructor.
  - rewrite style_applies_after_slash. reflexivity.
  - rewrite script_applies_after_slash. reflexivity.
  - rewrite asset_applies_after_slash. reflexivity.
Qed.

End Config.

(** ** The module at a concrete place

    The module in [/srv/app], with a [path.resolve] that joins its two
    arguments, and two upper-case tables: one that maps nothing, and one
    with the long s (U+017F), whose upper case is the ASCII letter S. *)

Example scss_paths :
  test (fun c => c) scss_test (str "/srv/app/src/styles.scss") = true /\
  test (fun c => c) scss_test (str "/srv/app/src/styles.scss.map") = false /\
  test (fun c => c) scss_test (str "/srv/app/src/styles.SCSS") = false /\
  test (fun c => c) scss_test (str "/srv/app/src/styles.scss" ++ [10]) = false.
Proof. repeat split. Qed.

Example script_paths :
  let r := rule (str "/srv/app") (fun a b => a ++ 47 :: b) 1 in
  rule_applies (fun c => c) r (str "/srv/app/src/index.js") = true /\
  rule_applies (fun c => c) r (str "/srv/app/src/index.jsx") = false /\
  rule_applies (fun c => c) r (str "/srv/app/node_modules/lodash/lodash.js")
  = false.
Proof. repeat split. Qed.

Example asset_paths :
  let up := fun c => if c =? 383 then 83 else c in
  test up asset_test (str "/srv/app/src/logo.png") = true /\
  test up asset_test (str "/srv/app/src/Photo.JPeG") = true /\
  test up asset_test (str "/srv/app/src/logo.webp") = false /\
  test up asset_test (str "/srv/app/src/logo.png.txt") = false /\
  test up asset_test (str "/srv/app/src/logo." ++ [383; 118; 103]) = false.
Proof. repeat split. Qed.

Example emitted_names :
  chunk_filename (str "/srv/app") (fun a b => a ++ 47 :: b)
    (str "bundle") (str "3f2a9c")
  = str "bundle3f2a9c.js" /\
  asset_filename (str "/srv/app") (fun a b => a ++ 47 :: b)
    (mkAsset (str "src/img/") (str "logo") (str ".png") (str "77aa"))
  = str "logo.png" /\
  asset_filename (str "/srv/app") (fun a b => a ++ 47 :: b)
    (mkAsset (str "src/icons/") (str "logo") (str ".png") (str "01bc"))
  = str "logo.png".
Proof. repeat split. Qed.

Lemma script_rule_excludes_substring_witness :
  contains (str "node_modules")
           (str "/srv/app/src/old_node_modules_copy/util.js") /\
  condition (fun c => c)
    (get "exclude" (rule (str "/srv/app") (fun a b => a ++ 47 :: b) 1))
    (str "/srv/app/src/old_node_modules_copy/util.js") = true /\
  rule_applies (fun c => c)
    (rule (str "/srv/app") (fun a b => a ++ 47 :: b) 1)
    (str "/srv/app/src/old_node_modules_copy/util.js") = false.
Proof.
  assert (H : contains (str "node_modules")
                (str "/srv/app/src/old_node_modules_copy/util.js")).
  { exists (str "/srv/app/src/old_"), (str "_copy/util.js"). reflexivity. }
  split; [exact H | ].
  apply (script_rule_excludes_substring (fun c => c) (str "/srv/app")
           (fun a b => a ++ 47 :: b)
           (str "/srv/app/src/old_node_modules_copy/util.js")).
  exact H.
Defined.

Lemma entry_is_handled_by_script_rule_witness :
  (fun a b => a ++ 47 :: b) (str "/srv/app") (str "src/index.js")
  = str "/srv/app" ++ str "/src/index.js" /\
  rule_applies (fun c => c)
    (rule (str "/srv/app") (fun a b => a ++ 47 :: b) 1)
    (entry_resource (str "/srv/app") (fun a b => a ++ 47 :: b) "bundle")
  = negb (test (fun c => c) js_exclude (str "/srv/app")).
Proof.
  split; [reflexivity | ].
  exact (proj1 (entry_is_handled_by_script_rule (fun c => c) (str "/srv/app")
                  (fun a b => a ++ 47 :: b) eq_refl)).
Defined.


Lemma asset_never_overwrites_html_or_script_witness :
  rule_applies (fun c => c)
    (rule (str "/srv/app") (fun a b => a ++ 47 :: b) 2)
    (str "/srv/app/src/img/logo.PNG") = true /\
  ends_with (str "logo" ++ str ".PNG") (str "/srv/app/src/img/logo.PNG") /\
  asset_filename (str "/srv/app") (fun a b => a ++ 47 :: b)
    (mkAsset (str "src/img/") (str "logo") (str ".PNG") (str "77aa"))
  <> html_filename (str "/srv/app") (fun a b => a ++ 47 :: b).
Proof.
  assert (S : ends_with (str "logo" ++ str ".PNG")
                (str "/srv/app/src/img/logo.PNG")).
  { exists (str "/srv/app/src/img/"). reflexivity. }
  split; [reflexivity | ]. split; [exact S | ].
  exact (proj1 (asset_never_overwrites_html_or_script (fun c => c)
                  (str "/srv/app") (fun a b => a ++ 47 :: b)
                  (mkAsset (str "src/img/") (str "logo") (str ".PNG")
                     (str "77aa"))
                  (str "/srv/app/src/img/logo.PNG") eq_refl S)).
Defined.
